(** * DeepChem glue code: ElementPropertyFingerprint and the USPTO loader

    A shallow embedding of

    - [deepchem/feat/material_featurizers/element_property_fingerprint.py]
      (class [ElementPropertyFingerprint]), and
    - [deepchem/molnet/load_function/uspto_datasets.py]
      (class [_USPTOLoader], function [load_uspto]),

    together with the properties of these two adapters.

    Both classes are thin wrappers around libraries that are not part of
    the code base (matminer, numpy, the generic MolNet loader, the CSV
    loader, the download helper).  Those libraries appear here as Section
    variables: everything proved below holds whatever they compute. *)

From Stdlib Require Import String Ascii List Bool ZArith Lia.
From Stdlib Require Import Floats.SpecFloat.
Import ListNotations.
Open Scope string_scope.

(** ** Python values shared by the two modules *)

Module Py.

(** The exception classes the two files raise, catch or let through.
    [ModuleNotFoundError] is a subclass of [ImportError]; nothing below
    catches [ImportError], so the subclass relation is only recorded by
    [is_ImportError].  [KeyboardInterrupt] and [SystemExit] are not
    subclasses of [Exception]; a bare [except:] catches them all the
    same. *)
Inductive exn_class : Type :=
| ModuleNotFoundError
| ImportError
| ValueError
| KeyError
| UnboundLocalError
| KeyboardInterrupt
| SystemExit
| OtherException (name : string).

Record exn : Type := mk_exn { exn_cls : exn_class; exn_msg : string }.

(** Outcome of a Python call: a value, or a raised exception. *)
Inductive result (A : Type) : Type :=
| Return (a : A)
| Raise (e : exn).
Arguments Return {A} a.
Arguments Raise {A} e.

Definition is_ImportError (c : exn_class) : bool :=
  match c with
  | ImportError | ModuleNotFoundError => true
  | _ => false
  end.

Definition is_ModuleNotFoundError (c : exn_class) : bool :=
  match c with
  | ModuleNotFoundError => true
  | _ => false
  end.

(** [needle in hay] on Python strings. *)
Fixpoint str_in (needle hay : string) : bool :=
  String.prefix needle hay ||
  match hay with
  | EmptyString => false
  | String _ hay' => str_in needle hay'
  end.

(** [s.startswith(c)] and [s.endswith(c)] for a one-character [c]. *)
Definition startswith_char (c : ascii) (s : string) : bool :=
  match s with
  | String a _ => Ascii.eqb a c
  | EmptyString => false
  end.

Fixpoint endswith_char (c : ascii) (s : string) : bool :=
  match s with
  | EmptyString => false
  | String a EmptyString => Ascii.eqb a c
  | String _ s' => endswith_char c s'
  end.

(** [os.path.join(a, b)] of [posixpath], two components. *)
Definition os_path_join (a b : string) : string :=
  if startswith_char "/" b then b
  else if (String.eqb a "" || endswith_char "/" a)%bool then a ++ b
  else a ++ "/" ++ b.

(** [os.path.basename(p)] of [posixpath]: what follows the last slash.
    [acc] is the component read since the last slash. *)
Fixpoint basename_from (acc p : string) : string :=
  match p with
  | EmptyString => acc
  | String c p' =>
      if Ascii.eqb c "/" then basename_from "" p'
      else basename_from (acc ++ String c "") p'
  end.

Definition os_path_basename (p : string) : string := basename_from "" p.

End Py.

Import Py.

(** ** numpy: float64 arrays and [nan_to_num] *)

Module Np.

(** A float64 is an IEEE 754 binary64 datum: a zero, an infinity, a NaN
    or a finite number [(-1)^s * m * 2^e]. *)
Definition float64 : Type := spec_float.

(** A one-dimensional float64 array. *)
Definition ndarray : Type := list float64.

(** [np.array(feats)] for a Python list of floats. *)
Definition array (feats : list float64) : ndarray := feats.

Definition isnan (x : float64) : bool :=
  match x with
  | S754_nan => true
  | _ => false
  end.

(** The largest finite binary64, [(2^53 - 1) * 2^971]. *)
Definition float64_max_mantissa : positive := 9007199254740991.
Definition float64_max_exponent : Z := 971.

(** [np.nan_to_num] with its default arguments on one entry: NaN becomes
    [0.0], an infinity becomes the finite number of largest magnitude and
    the same sign, anything else is kept. *)
Definition nan_to_num1 (x : float64) : float64 :=
  match x with
  | S754_nan => S754_zero false
  | S754_infinity s => S754_finite s float64_max_mantissa float64_max_exponent
  | _ => x
  end.

Definition nan_to_num (a : ndarray) : ndarray := List.map nan_to_num1 a.

Definition isinf (x : float64) : bool :=
  match x with
  | S754_infinity _ => true
  | _ => false
  end.

(** [np.isfinite]: neither a NaN nor an infinity. *)
Definition isfinite (x : float64) : bool := negb (isnan x || isinf x).

End Np.

Import Np.

(** ** [ElementPropertyFingerprint] *)

Module ElementPropertyFingerprint.

Section Featurizer.

(** [pymatgen.core.Composition], opaque to the featurizer. *)
Variable PymatgenComposition : Type.

(** An instance of [matminer.featurizers.composition.ElementProperty]. *)
Variable ElementProperty : Type.

(** Outcome of the statement
    [from matminer.featurizers.composition import ElementProperty]. *)
Variable import_ElementProperty : result unit.

(** [ElementProperty.from_preset(preset_name)]. *)
Variable from_preset : string -> result ElementProperty.

(** [ElementProperty.featurize(self, comp)]: the list of statistics, or
    an exception. *)
Variable ep_featurize :
  ElementProperty -> PymatgenComposition -> result (list float64).

(** The instance attributes set by [__init__]. *)
Record t : Type := mk {
  data_source : string;
  ep_featurizer : option ElementProperty
}.

Definition __init__ (data_source : string) : t :=
  {| data_source := data_source; ep_featurizer := None |}.

Definition default_data_source : string := "matminer".

Definition missing_matminer_msg : string :=
  "This class requires matminer to be installed.".

(** The body of the [try] of lines 78-80: the import, then the call of
    [from_preset] and the assignment to [self.ep_featurizer]. *)
Definition try_construct (self : t) : result t :=
  match import_ElementProperty with
  | Raise e => Raise e
  | Return _ =>
      match from_preset (data_source self) with
      | Raise e => Raise e
      | Return ep =>
          Return {| data_source := data_source self;
                    ep_featurizer := Some ep |}
      end
  end.

(** Lines 77-82: build the engine when there is none yet; a
    [ModuleNotFoundError] is turned into an [ImportError], any other
    exception goes through. *)
Definition ensure_engine (self : t) : result unit * t :=
  match ep_featurizer self with
  | Some _ => (Return tt, self)
  | None =>
      match try_construct self with
      | Return self' => (Return tt, self')
      | Raise e =>
          if is_ModuleNotFoundError (exn_cls e)
          then (Raise (mk_exn ImportError missing_matminer_msg), self)
          else (Raise e, self)
      end
  end.

(** [self.ep_featurizer.featurize(composition)]; calling the method on
    [None] is an [AttributeError]. *)
Definition call_featurize (self : t) (composition : PymatgenComposition)
  : result (list float64) :=
  match ep_featurizer self with
  | Some ep => ep_featurize ep composition
  | None =>
      Raise (mk_exn (OtherException "AttributeError")
               "'NoneType' object has no attribute 'featurize'")
  end.

(** Lines 84-87: the bare [except:] catches every exception. *)
Definition try_featurize (self : t) (composition : PymatgenComposition)
  : list float64 :=
  match call_featurize self composition with
  | Return feats => feats
  | Raise _ => []
  end.

Definition _featurize (self : t) (composition : PymatgenComposition)
  : result ndarray * t :=
  match ensure_engine self with
  | (Raise e, self') => (Raise e, self')
  | (Return _, self') =>
      let feats := try_featurize self' composition in
      (Return (nan_to_num (array feats)), self')
  end.

(** The three presets the constructor documents. *)
Definition valid_data_source (ds : string) : bool :=
  existsb (String.eqb ds) ["matminer"; "magpie"; "deml"].

(** [uses_engine self ep]: a call of [_featurize] on [self] computes
    with the engine [ep], either the cached one or the one it builds. *)
Definition uses_engine (self : t) (ep : ElementProperty) : Prop :=
  ep_featurizer self = Some ep \/
  (ep_featurizer self = None /\
   import_ElementProperty = Return tt /\
   from_preset (data_source self) = Return ep).

Definition no_nan (v : ndarray) : Prop :=
  Forall (fun x => isnan x = false) v.

Definition all_finite (v : ndarray) : Prop :=
  Forall (fun x => isfinite x = true) v.

End Featurizer.

Arguments mk {ElementProperty} _ _.
Arguments data_source {ElementProperty} _.
Arguments ep_featurizer {ElementProperty} _.
Arguments __init__ {ElementProperty} _.
Arguments try_construct {ElementProperty} _ _ _.
Arguments ensure_engine {ElementProperty} _ _ _.
Arguments call_featurize {PymatgenComposition ElementProperty} _ _ _.
Arguments try_featurize {PymatgenComposition ElementProperty} _ _ _.
Arguments _featurize {PymatgenComposition ElementProperty} _ _ _ _ _.
Arguments uses_engine {ElementProperty} _ _ _ _.

End ElementPropertyFingerprint.

(** ** The USPTO loader *)

Module USPTO.

Definition USPTO_MIT_URL : string :=
  "https://deepchemdata.s3.us-west-1.amazonaws.com/datasets/USPTO_MIT.csv".
Definition USPTO_STEREO_URL : string :=
  "https://deepchemdata.s3.us-west-1.amazonaws.com/datasets/USPTO_STEREO.csv".
Definition USPTO_50K_URL : string :=
  "https://deepchemdata.s3.us-west-1.amazonaws.com/datasets/USPTO_50K.csv".
Definition USPTO_FULL_URL : string :=
  "https://deepchemdata.s3.us-west-1.amazonaws.com/datasets/USPTO_FULL.csv".

Definition USPTO_TASK : list string := [].

Section Loader.

(** Objects of the host toolkit, opaque to the loader. *)
Variable Featurizer : Type.
Variable SplitterObject : Type.
Variable Transformer : Type.
Variable Dataset : Type.

(** Everything outside the process: the file system and the network. *)
Variable World : Type.

(** [deepchem.utils.data_utils.get_data_dir()]. *)
Variable get_data_dir : string.

(** A splitter as [load_uspto] receives it:
    [Union[dc.splits.Splitter, str, None]]. *)
Inductive splitter_t : Type :=
| SplitterName (s : string)
| SplitterInstance (o : SplitterObject)
| SplitterNone.

(** [sp == s] for a string [s]: only a string equals a string. *)
Definition splitter_eq_str (sp : splitter_t) (s : string) : bool :=
  match sp with
  | SplitterName n => String.eqb n s
  | _ => false
  end.

(** A [dc.data.CSVLoader] as constructed with the three keyword
    arguments of line 61. *)
Record CSVLoader : Type := mk_CSVLoader {
  csv_tasks : list string;
  csv_feature_field : string;
  csv_featurizer : Featurizer
}.

(** [os.path.exists(path)]. *)
Variable path_exists : World -> string -> bool.

(** [dc.utils.data_utils.download_url(url=..., dest_dir=...)]. *)
Variable download_url : string -> string -> World -> result unit * World.

(** [CSVLoader.create_dataset(self, input_file, shard_size=...)]. *)
Variable csv_create_dataset :
  CSVLoader -> string -> Z -> World -> result Dataset * World.

(** What the loader does to the outside, in program order. *)
Inductive event : Type :=
| LoggerInfo (msg : string)
| DownloadUrl (url dest_dir : string)
| CSVCreateDataset (loader : CSVLoader) (input_file : string)
    (shard_size : Z).

(** Computations that read and change the world, emit events and may
    raise.  An exception keeps the world and the events so far. *)
Definition M (A : Type) : Type := World -> result A * World * list event.

Definition ret {A : Type} (a : A) : M A := fun w => (Return a, w, []).

Definition bind {A B : Type} (m : M A) (f : A -> M B) : M B :=
  fun w =>
    match m w with
    | (Return a, w1, t1) =>
        match f a w1 with
        | (r, w2, t2) => (r, w2, (t1 ++ t2)%list)
        end
    | (Raise e, w1, t1) => (Raise e, w1, t1)
    end.

Definition raise {A : Type} (e : exn) : M A := fun w => (Raise e, w, []).

Definition emit (ev : event) : M unit := fun w => (Return tt, w, [ev]).

Definition logger_info (msg : string) : M unit := emit (LoggerInfo msg).

Definition os_path_exists (path : string) : M bool :=
  fun w => (Return (path_exists w path), w, []).

Definition call_download_url (url dest_dir : string) : M unit :=
  fun w =>
    match download_url url dest_dir w with
    | (r, w') => (r, w', [DownloadUrl url dest_dir])
    end.

Definition call_csv_create_dataset (loader : CSVLoader)
    (input_file : string) (shard_size : Z) : M Dataset :=
  fun w =>
    match csv_create_dataset loader input_file shard_size w with
    | (r, w') => (r, w', [CSVCreateDataset loader input_file shard_size])
    end.

Notation "x <- m ;; k" := (bind m (fun x => k))
  (at level 61, m at next level, right associativity).
Notation "m ;;; k" := (bind m (fun _ => k))
  (at level 61, right associativity).

(** The attributes of the base class the loader reads. *)
Record _MolnetLoader : Type := mk_MolnetLoader {
  featurizer : Featurizer;
  splitter : splitter_t;
  transformers : list Transformer;
  tasks : list string;
  data_dir : string;
  save_dir : string
}.

(** Modelled from the spec: [_MolnetLoader.__init__], the constructor of
    the base class in [molnet_loader.py], is not part of these sources.
    The featurizer, splitter, transformers, task list and the two
    directories are the generic knobs handed to the enclosing loader
    framework; it keeps them on the instance, a directory left out
    being the default data directory. *)
Definition MolnetLoader_init (featurizer : Featurizer)
    (splitter : splitter_t) (transformers : list Transformer)
    (tasks : list string) (data_dir save_dir : option string)
  : _MolnetLoader :=
  {| featurizer := featurizer;
     splitter := splitter;
     transformers := transformers;
     tasks := tasks;
     data_dir := match data_dir with Some d => d | None => get_data_dir end;
     save_dir := match save_dir with Some d => d | None => get_data_dir end
  |}.

(** [_USPTOLoader]: the base-class part and its own three attributes. *)
Record _USPTOLoader : Type := mk_USPTOLoader {
  super : _MolnetLoader;
  subset : string;
  sep_reagent : bool;
  name : string
}.

(** [_USPTOLoader.__init__]; [base] is [self] after
    [super().__init__( *args, **kwargs)]. *)
Definition __init__ (base : _MolnetLoader) (subset : string)
    (sep_reagent : bool) : _USPTOLoader :=
  {| super := base;
     subset := subset;
     sep_reagent := sep_reagent;
     name := "USPTO_" ++ subset |}.

Definition invalid_subset_msg : string :=
  "Valid Subset names are MIT, STEREO and 50K.".

Definition no_split_msg : string :=
  "There is no pre computed split for the full dataset, use a custom split instead!".

(** [subset in ['MIT', 'STEREO', '50K', 'FULL']]. *)
Definition subset_in_list (subset : string) : bool :=
  existsb (String.eqb subset) ["MIT"; "STEREO"; "50K"; "FULL"].

(** Lines 38-52.  [dataset_url] is a local that is bound by whichever
    [if] fires; [None] stands for "not bound". *)
Definition select_url (self : _USPTOLoader) : M (option string) :=
  let dataset_url : option string := None in
  let dataset_url :=
    if subset self =? "MIT" then Some USPTO_MIT_URL else dataset_url in
  let dataset_url :=
    if subset self =? "STEREO" then Some USPTO_STEREO_URL
    else dataset_url in
  let dataset_url :=
    if subset self =? "50K" then Some USPTO_50K_URL else dataset_url in
  if subset self =? "FULL" then
    let dataset_url := Some USPTO_FULL_URL in
    if splitter_eq_str (splitter (super self)) "SpecifiedSplitter"
    then raise (mk_exn ValueError no_split_msg)
    else ret dataset_url
  else ret dataset_url.

(** Reading the local [dataset_url]. *)
Definition read_local (dataset_url : option string) : M string :=
  match dataset_url with
  | Some url => ret url
  | None =>
      raise (mk_exn UnboundLocalError
               "local variable 'dataset_url' referenced before assignment")
  end.

Definition create_dataset (self : _USPTOLoader) : M Dataset :=
  if negb (subset_in_list (subset self)) then
    raise (mk_exn ValueError invalid_subset_msg)
  else
    dataset_url <- select_url self ;;
    let dataset_file :=
      os_path_join (data_dir (super self)) (name self ++ ".csv") in
    present <- os_path_exists dataset_file ;;
    (if negb present then
       logger_info "Downloading dataset..." ;;;
       url <- read_local dataset_url ;;
       call_download_url url (data_dir (super self)) ;;;
       logger_info "Dataset download complete."
     else ret tt) ;;;
    let loader :=
      {| csv_tasks := tasks (super self);
         csv_feature_field := "reactions";
         csv_featurizer := featurizer (super self) |} in
    call_csv_create_dataset loader dataset_file 8192.

(** Lines 151-160 of [load_uspto]: the loader it constructs. *)
Definition load_uspto_loader (featurizer : Featurizer)
    (splitter : splitter_t) (transformers : list Transformer)
    (data_dir save_dir : option string) (subset : string)
    (sep_reagent : bool) : _USPTOLoader :=
  __init__
    (MolnetLoader_init featurizer splitter transformers USPTO_TASK
       data_dir save_dir)
    subset sep_reagent.

(** The downloads in a trace, in order: (url, destination directory). *)
Fixpoint downloads (tr : list event) : list (string * string) :=
  match tr with
  | [] => []
  | DownloadUrl url dest :: tr' => (url, dest) :: downloads tr'
  | _ :: tr' => downloads tr'
  end.

(** The CSV parses in a trace, in order. *)
Fixpoint csv_parses (tr : list event) : list (CSVLoader * string * Z) :=
  match tr with
  | [] => []
  | CSVCreateDataset l f n :: tr' => (l, f, n) :: csv_parses tr'
  | _ :: tr' => csv_parses tr'
  end.

(** The names the description of the loader uses, written from its
    words: the cache file [USPTO_<subset>.csv] inside the data
    directory, and the URL of a subset. *)
Definition cache_file (data_dir subset : string) : string :=
  os_path_join data_dir ("USPTO_" ++ subset ++ ".csv").

Definition subset_url (subset : string) : string :=
  "https://deepchemdata.s3.us-west-1.amazonaws.com/datasets/USPTO_"
    ++ subset ++ ".csv".

(** The events, the result and the final world of a run. *)
Definition trace_of {A : Type} (out : result A * World * list event)
  : list event := snd out.

Definition result_of {A : Type} (out : result A * World * list event)
  : result A := fst (fst out).

Definition world_of {A : Type} (out : result A * World * list event)
  : World := snd (fst out).

(** The CSV loader of line 61 and the arguments of line 64. *)
Definition parse_of (self : _USPTOLoader) : CSVLoader * string * Z :=
  ({| csv_tasks := tasks (super self);
      csv_feature_field := "reactions";
      csv_featurizer := featurizer (super self) |},
   os_path_join (data_dir (super self)) (name self ++ ".csv"),
   8192%Z).

(** The four subsets the loader knows. *)
Definition recognized_subsets : list string :=
  ["MIT"; "STEREO"; "50K"; "FULL"].

(** Two loader objects that are equal except, possibly, for their
    [sep_reagent] flag. *)
Definition same_up_to_sep_reagent (a b : _USPTOLoader) : Prop :=
  super a = super b /\ subset a = subset b /\ name a = name b.

(** The combination rejected at lines 47-52. *)
Definition full_with_specified_split (self : _USPTOLoader) : bool :=
  (subset self =? "FULL") &&
  splitter_eq_str (splitter (super self)) "SpecifiedSplitter".

(** The two refusals of lines 35-36 and 47-52 together. *)
Definition validation_fails (self : _USPTOLoader) : bool :=
  negb (subset_in_list (subset self)) || full_with_specified_split self.

(** [sp == 'SpecifiedSplitter'], the only use [create_dataset] makes of
    the splitter. *)
Definition is_specified_splitter (sp : splitter_t) : bool :=
  splitter_eq_str sp "SpecifiedSplitter".

End Loader.

Arguments SplitterName {SplitterObject} s.
Arguments SplitterInstance {SplitterObject} o.
Arguments SplitterNone {SplitterObject}.
Arguments mk_CSVLoader {Featurizer} _ _ _.
Arguments csv_tasks {Featurizer} _.
Arguments csv_feature_field {Featurizer} _.
Arguments csv_featurizer {Featurizer} _.
Arguments LoggerInfo {Featurizer} msg.
Arguments DownloadUrl {Featurizer} url dest_dir.
Arguments CSVCreateDataset {Featurizer} loader input_file shard_size.
Arguments featurizer {Featurizer SplitterObject Transformer} _.
Arguments splitter {Featurizer SplitterObject Transformer} _.
Arguments transformers {Featurizer SplitterObject Transformer} _.
Arguments tasks {Featurizer SplitterObject Transformer} _.
Arguments data_dir {Featurizer SplitterObject Transformer} _.
Arguments save_dir {Featurizer SplitterObject Transformer} _.
Arguments MolnetLoader_init {Featurizer SplitterObject Transformer}
  get_data_dir featurizer splitter transformers tasks data_dir save_dir.
Arguments super {Featurizer SplitterObject Transformer} _.
Arguments subset {Featurizer SplitterObject Transformer} _.
Arguments sep_reagent {Featurizer SplitterObject Transformer} _.
Arguments name {Featurizer SplitterObject Transformer} _.
Arguments __init__ {Featurizer SplitterObject Transformer}
  base subset sep_reagent.
Arguments create_dataset {Featurizer SplitterObject Transformer Dataset
  World} path_exists download_url csv_create_dataset self _.
Arguments load_uspto_loader {Featurizer SplitterObject Transformer}
  get_data_dir featurizer splitter transformers data_dir save_dir subset
  sep_reagent.
Arguments trace_of {Featurizer World A} out.
Arguments result_of {Featurizer World A} out.
Arguments world_of {Featurizer World A} out.
Arguments parse_of {Featurizer SplitterObject Transformer} self.
Arguments same_up_to_sep_reagent {Featurizer SplitterObject Transformer}
  a b.
Arguments downloads {Featurizer} tr.
Arguments csv_parses {Featurizer} tr.
Arguments full_with_specified_split {Featurizer SplitterObject Transformer}
  self.

Arguments validation_fails {Featurizer SplitterObject Transformer} self.
Arguments is_specified_splitter {SplitterObject} sp.

End USPTO.

(** ** Concrete stand-ins for the external libraries

    Small worlds on which the models above run, used for the examples. *)

Module Fixtures.

Import ElementPropertyFingerprint.

(** A toy matminer: an engine is the name of its preset; an unknown
    preset is refused the way matminer refuses it. *)
Definition toy_from_preset (preset_name : string) : result string :=
  if valid_data_source preset_name then Return preset_name
  else Raise (mk_exn ValueError "Invalid preset_name specified!").

Definition one : float64 := S754_finite false 1 0.

(** The toy engine fails on the empty composition, and else answers with
    a NaN, a one and a negative infinity. *)
Definition toy_featurize (ep comp : string) : result (list float64) :=
  if comp =? "" then Raise (mk_exn KeyError "no element")
  else Return [S754_nan; one; S754_infinity true].

Definition matminer_present : result unit := Return tt.

Definition matminer_absent : result unit :=
  Raise (mk_exn ModuleNotFoundError "No module named 'matminer'").

(** A toy outside world: the list of the paths that exist.  A download
    creates [dest_dir/basename(url)]; here the basename is what follows
    the fixed prefix of the four USPTO URLs. *)
Definition toy_world : Type := list string.

Definition toy_exists (w : toy_world) (path : string) : bool :=
  existsb (String.eqb path) w.

Definition url_prefix_len : nat :=
  String.length "https://deepchemdata.s3.us-west-1.amazonaws.com/datasets/".

Definition toy_download (url dest_dir : string) (w : toy_world)
  : result unit * toy_world :=
  let base := substring url_prefix_len (String.length url) url in
  (Return tt, os_path_join dest_dir base :: w).

(** A toy dataset: the path it was read from. *)
Definition toy_csv (l : USPTO.CSVLoader string) (input_file : string)
    (shard_size : Z) (w : toy_world) : result string * toy_world :=
  if toy_exists w input_file then (Return input_file, w)
  else (Raise (mk_exn (OtherException "FileNotFoundError") input_file), w).

Definition toy_base (sp : USPTO.splitter_t unit)
  : USPTO._MolnetLoader string unit unit :=
  USPTO.MolnetLoader_init "/data" "dummy" sp [] ["label"] None None.

Definition toy_create_dataset
    (self : USPTO._USPTOLoader string unit unit) :=
  USPTO.create_dataset toy_exists toy_download toy_csv self.

Definition full_specified_loader : USPTO._USPTOLoader string unit unit :=
  USPTO.__init__ (toy_base (USPTO.SplitterName "SpecifiedSplitter"))
    "FULL" true.

(** A loader for FULL whose splitter is an object, the way a
    [dc.splits.SpecifiedSplitter] instance reaches the loader; [tt] stands
    for the instance. *)
Definition full_splitter_object_loader
  : USPTO._USPTOLoader string unit unit :=
  USPTO.__init__ (toy_base (USPTO.SplitterInstance tt)) "FULL" true.

(** The loader [load_uspto] builds in the toy world, data directory left
    out. *)
Definition toy_uspto_loader (sub : string)
  : USPTO._USPTOLoader string unit unit :=
  USPTO.load_uspto_loader "/data" "dummy" USPTO.SplitterNone [] None None
    sub true.

Definition toy_featurizer_call (import_outcome : result unit)
    (ds comp : string) :=
  _featurize import_outcome toy_from_preset toy_featurize
    (__init__ ds) comp.

(** A matminer whose presets need a module that is not installed. *)
Definition toy_from_preset_no_pymatgen (preset_name : string)
  : result string :=
  Raise (mk_exn ModuleNotFoundError "No module named 'pymatgen'").

(** An engine that answers with finite numbers only. *)
Definition toy_featurize_finite (ep comp : string)
  : result (list float64) :=
  Return [one; S754_zero true; S754_finite true 3 (-1)].

(** A network that is down. *)
Definition toy_download_fails (url dest_dir : string) (w : toy_world)
  : result unit * toy_world :=
  (Raise (mk_exn (OtherException "URLError") url), w).

Definition toy_create_dataset_offline
    (self : USPTO._USPTOLoader string unit unit) :=
  USPTO.create_dataset toy_exists toy_download_fails toy_csv self.

(** A download helper that stores the file under the name at the end of
    the URL, as read by [os.path.basename]. *)
Definition toy_download_basename (url dest_dir : string) (w : toy_world)
  : result unit * toy_world :=
  (Return tt, os_path_join dest_dir (os_path_basename url) :: w).

Definition toy_create_dataset_basename
    (self : USPTO._USPTOLoader string unit unit) :=
  USPTO.create_dataset toy_exists toy_download_basename toy_csv self.

End Fixtures.

(** * Properties of [ElementPropertyFingerprint] *)

Section FingerprintProperties.

Import ElementPropertyFingerprint.

Context {PymatgenComposition ElementProperty : Type}.
Variable import_ElementProperty : result unit.
Variable from_preset : string -> result ElementProperty.
Variable ep_featurize :
  ElementProperty -> PymatgenComposition -> result (list float64).

Local Abbreviation featurize :=
  (_featurize import_ElementProperty from_preset ep_featurize).
Local Abbreviation engine_for :=
  (uses_engine import_ElementProperty from_preset).

(** *** [nan_to_num] *)

Lemma nan_to_num1_not_nan (x : float64) : isnan (nan_to_num1 x) = false.
Proof. destruct x; reflexivity. Qed.

Lemma nan_to_num_no_nan (a : ndarray) : no_nan (nan_to_num a).
Proof.
  unfold no_nan, nan_to_num.
  induction a as [|x a IH]; simpl; constructor.
  - apply nan_to_num1_not_nan.
  - exact IH.
Qed.

Lemma nan_to_num_length (a : ndarray) :
  List.length (nan_to_num a) = List.length a.
Proof. unfold nan_to_num. apply length_map. Qed.

Lemma nan_to_num_nth (a : ndarray) (i : nat) (x : float64) :
  nth_error a i = Some x ->
  nth_error (nan_to_num a) i = Some (nan_to_num1 x).
Proof.
  intros H. unfold nan_to_num. rewrite nth_error_map, H. reflexivity.
Qed.

(** *** The engine is built once *)

Lemma ensure_engine_cached (self : t ElementProperty) ep :
  ep_featurizer self = Some ep ->
  ensure_engine import_ElementProperty from_preset self = (Return tt, self).
Proof. intros H. unfold ensure_engine. rewrite H. reflexivity. Qed.

Lemma ensure_engine_builds (self : t ElementProperty) ep :
  ep_featurizer self = None ->
  import_ElementProperty = Return tt ->
  from_preset (data_source self) = Return ep ->
  ensure_engine import_ElementProperty from_preset self =
    (Return tt, mk (data_source self) (Some ep)).
Proof.
  intros Hnone Himp Hpre. unfold ensure_engine, try_construct.
  rewrite Hnone, Himp, Hpre. reflexivity.
Qed.

Lemma ensure_engine_return (self : t ElementProperty) u s :
  ensure_engine import_ElementProperty from_preset self = (Return u, s) ->
  exists ep, ep_featurizer s = Some ep.
Proof.
  unfold ensure_engine, try_construct.
  destruct (ep_featurizer self) as [ep|] eqn:Hself.
  - intros H. inversion H; subst. exists ep. exact Hself.
  - destruct import_ElementProperty as [x|e].
    + destruct (from_preset (data_source self)) as [ep|e].
      * intros H. inversion H; subst. exists ep. reflexivity.
      * destruct (is_ModuleNotFoundError (exn_cls e)); discriminate.
    + destruct (is_ModuleNotFoundError (exn_cls e)); discriminate.
Qed.

Lemma ensure_engine_raise (self : t ElementProperty) e s :
  ensure_engine import_ElementProperty from_preset self = (Raise e, s) ->
  s = self.
Proof.
  unfold ensure_engine, try_construct.
  destruct (ep_featurizer self) as [ep|]; [discriminate|].
  destruct import_ElementProperty as [x|e0].
  - destruct (from_preset (data_source self)) as [ep|e0]; [discriminate|].
    destruct (is_ModuleNotFoundError (exn_cls e0));
      intros H; inversion H; reflexivity.
  - destruct (is_ModuleNotFoundError (exn_cls e0));
      intros H; inversion H; reflexivity.
Qed.

(** With an engine at hand, [_featurize] returns, and what it returns is
    [nan_to_num] of the engine's answer, or of the empty list. *)
Lemma featurize_with_engine (self : t ElementProperty) ep c :
  engine_for self ep ->
  featurize self c =
    (Return (nan_to_num
               match ep_featurize ep c with
               | Return feats => feats
               | Raise _ => []
               end),
     mk (data_source self) (Some ep)).
Proof.
  intros [Hc | (Hnone & Himp & Hpre)]; unfold _featurize.
  - rewrite (ensure_engine_cached self ep Hc).
    unfold try_featurize, call_featurize, array. rewrite Hc.
    destruct self as [ds e]; simpl in *; subst e. reflexivity.
  - rewrite (ensure_engine_builds self ep Hnone Himp Hpre).
    reflexivity.
Qed.

(** Whatever happens, a returned vector went through [nan_to_num]. *)
Lemma featurize_returns_nan_to_num (self : t ElementProperty) c v self' :
  featurize self c = (Return v, self') ->
  exists feats, v = nan_to_num feats.
Proof.
  unfold _featurize.
  destruct (ensure_engine _ _ self) as [[u|e] s]; intros H;
    inversion H; subst. eexists; reflexivity.
Qed.

(** *** The claims about [_featurize] *)

(** C1.  For a featurizer configured with one of the presets matminer,
    magpie or deml and for every composition: a vector that [_featurize]
    returns has no NaN entry; and as soon as the engine is there (cached,
    or built by this call) [_featurize] does return a vector, of the
    length of the engine's answer, in which every NaN of that answer has
    become [0.0]. *)
Theorem featurize_no_nan (self : t ElementProperty) c :
  valid_data_source (data_source self) = true ->
  (forall v self', featurize self c = (Return v, self') -> no_nan v) /\
  (forall ep, engine_for self ep ->
     exists v, fst (featurize self c) = Return v /\ no_nan v /\
       forall feats, ep_featurize ep c = Return feats ->
         List.length v = List.length feats /\
         forall i, nth_error feats i = Some S754_nan ->
                   nth_error v i = Some (S754_zero false)).
Proof.
  intros _. split.
  - intros v self' H.
    destruct (featurize_returns_nan_to_num self c v self' H) as [feats ->].
    apply nan_to_num_no_nan.
  - intros ep Hep. rewrite (featurize_with_engine self ep c Hep).
    eexists. split; [reflexivity|]. split; [apply nan_to_num_no_nan|].
    intros feats Hf. rewrite Hf. split; [apply nan_to_num_length|].
    intros i Hi. apply (nan_to_num_nth feats i _ Hi).
Qed.

(** C2.  When the engine's computation raises, whatever the exception,
    [_featurize] raises nothing: it returns the empty vector (of length
    0, not a vector of zeros), and keeps the engine. *)
Theorem featurize_swallows_engine_failure (self : t ElementProperty) ep c e :
  engine_for self ep ->
  ep_featurize ep c = Raise e ->
  featurize self c = (Return [], mk (data_source self) (Some ep)).
Proof.
  intros Hep Hraise. rewrite (featurize_with_engine self ep c Hep), Hraise.
  reflexivity.
Qed.

(** C6.  When matminer is not installed, so that the import raises
    [ModuleNotFoundError], the first call of [_featurize] raises an
    [ImportError] whose message is the fixed sentence naming matminer and
    asking for it to be installed, not the message of the import
    failure; the featurizer is left without an engine. *)
Theorem featurize_missing_matminer (ds : string) c (m : string) :
  import_ElementProperty = Raise (mk_exn ModuleNotFoundError m) ->
  exists e,
    featurize (__init__ ds) c = (Raise e, __init__ ds) /\
    exn_cls e = ImportError /\
    exn_msg e = "This class requires matminer to be installed." /\
    str_in "matminer" (exn_msg e) = true /\
    str_in "to be installed" (exn_msg e) = true.
Proof.
  intros Himp. eexists. split.
  - unfold _featurize, ensure_engine, try_construct. simpl.
    rewrite Himp. simpl. reflexivity.
  - repeat split; reflexivity.
Qed.

(** C7.  Two successive calls of [_featurize] on the same instance with
    the same composition have the same outcome, whatever the state of
    the instance before the first call: building and caching the engine
    in the first call changes neither the result nor, after it, the
    instance. *)
Theorem featurize_twice_same (self : t ElementProperty) c :
  fst (featurize (snd (featurize self c)) c) = fst (featurize self c) /\
  snd (featurize (snd (featurize self c)) c) = snd (featurize self c).
Proof.
  unfold _featurize.
  destruct (ensure_engine _ _ self) as [[u|e] s] eqn:E; simpl.
  - destruct (ensure_engine_return self u s E) as [ep Hep].
    rewrite (ensure_engine_cached s ep Hep). split; reflexivity.
  - pose proof (ensure_engine_raise self e s E) as Hs. subst s.
    rewrite E. split; reflexivity.
Qed.

End FingerprintProperties.

(** *** Runs on the toy engine *)

Example toy_featurize_Fe2O3 :
  Fixtures.toy_featurizer_call Fixtures.matminer_present "magpie" "Fe2O3" =
    (Return [S754_zero false; Fixtures.one;
             S754_finite true float64_max_mantissa float64_max_exponent],
     ElementPropertyFingerprint.mk "magpie" (Some "magpie")).
Proof. reflexivity. Qed.

Example toy_featurize_unknown_preset :
  fst (Fixtures.toy_featurizer_call Fixtures.matminer_present "bogus" "Fe2O3")
    = Raise (mk_exn ValueError "Invalid preset_name specified!").
Proof. reflexivity. Qed.

Lemma featurize_no_nan_witness :
  ElementPropertyFingerprint.valid_data_source "magpie" = true /\
  exists v,
    fst (Fixtures.toy_featurizer_call Fixtures.matminer_present
           "magpie" "Fe2O3") = Return v /\
    ElementPropertyFingerprint.no_nan v /\
    List.length v = 3%nat /\
    nth_error v 0 = Some (S754_zero false).
Proof.
  split; [reflexivity|].
  destruct (featurize_no_nan Fixtures.matminer_present
              Fixtures.toy_from_preset Fixtures.toy_featurize
              (ElementPropertyFingerprint.__init__ "magpie") "Fe2O3"
              eq_refl) as [_ H].
  destruct (H "magpie") as (v & Hv & Hnan & Hfeats).
  - right. repeat split; reflexivity.
  - exists v. split; [exact Hv|]. split; [exact Hnan|].
    destruct (Hfeats _ eq_refl) as [Hlen Hzero].
    split; [exact Hlen | apply Hzero; reflexivity].
Defined.

Lemma featurize_swallows_engine_failure_witness :
  Fixtures.toy_featurize "magpie" "" = Raise (mk_exn KeyError "no element") /\
  Fixtures.toy_featurizer_call Fixtures.matminer_present "magpie" "" =
    (Return [], ElementPropertyFingerprint.mk "magpie" (Some "magpie")).
Proof.
  split; [reflexivity|].
  apply (featurize_swallows_engine_failure Fixtures.matminer_present
           Fixtures.toy_from_preset Fixtures.toy_featurize
           (ElementPropertyFingerprint.__init__ "magpie") "magpie" ""
           (mk_exn KeyError "no element")).
  - right. repeat split; reflexivity.
  - reflexivity.
Defined.

Lemma featurize_missing_matminer_witness :
  exists e,
    Fixtures.toy_featurizer_call Fixtures.matminer_absent "deml" "Fe2O3" =
      (Raise e, ElementPropertyFingerprint.__init__ "deml") /\
    exn_cls e = ImportError /\
    exn_msg e = "This class requires matminer to be installed." /\
    str_in "matminer" (exn_msg e) = true /\
    str_in "to be installed" (exn_msg e) = true.
Proof.
  apply (featurize_missing_matminer Fixtures.matminer_absent
           Fixtures.toy_from_preset Fixtures.toy_featurize "deml" "Fe2O3"
           "No module named 'matminer'").
  reflexivity.
Defined.

(** * Properties of the USPTO loader *)

Section LoaderProperties.

Import USPTO.

Context {Featurizer SplitterObject Transformer Dataset World : Type}.
Variable path_exists : World -> string -> bool.
Variable download_url : string -> string -> World -> result unit * World.
Variable csv_create_dataset :
  CSVLoader Featurizer -> string -> Z -> World -> result Dataset * World.

Local Abbreviation loader_t :=
  (_USPTOLoader Featurizer SplitterObject Transformer).
Local Abbreviation run :=
  (create_dataset path_exists download_url csv_create_dataset).

Lemma subset_in_list_cases (s : string) :
  subset_in_list s = true ->
  s = "MIT" \/ s = "STEREO" \/ s = "50K" \/ s = "FULL".
Proof.
  unfold subset_in_list. simpl. rewrite !orb_true_iff, !String.eqb_eq.
  intuition discriminate.
Qed.

(** Lines 38-52 on a recognized subset that is not rejected: the URL of
    the subset is selected, and nothing happens outside. *)
Lemma select_url_accepts (self : loader_t) (w : World) :
  subset_in_list (subset self) = true ->
  full_with_specified_split self = false ->
  select_url Featurizer SplitterObject Transformer World self w =
    (Return (Some (subset_url (subset self))), w, []).
Proof.
  intros Hin Hrej. unfold full_with_specified_split in Hrej.
  unfold select_url.
  destruct (subset_in_list_cases _ Hin) as [H | [H | [H | H]]];
    rewrite H in *; simpl in *; try reflexivity.
  rewrite Hrej. reflexivity.
Qed.

(** The whole of [create_dataset] on a recognized subset that is not
    rejected. *)
Lemma create_dataset_accepted (self : loader_t) (w : World) :
  subset_in_list (subset self) = true ->
  full_with_specified_split self = false ->
  run self w =
    let '(ld, file, shard) := parse_of self in
    let dir := data_dir (super self) in
    let url := subset_url (subset self) in
    if path_exists w file then
      match csv_create_dataset ld file shard w with
      | (r, w1) => (r, w1, [CSVCreateDataset ld file shard])
      end
    else
      match download_url url dir w with
      | (Raise e, w1) =>
          (Raise e, w1,
           [LoggerInfo "Downloading dataset..."; DownloadUrl url dir])
      | (Return _, w1) =>
          match csv_create_dataset ld file shard w1 with
          | (r, w2) =>
              (r, w2,
               [LoggerInfo "Downloading dataset..."; DownloadUrl url dir;
                LoggerInfo "Dataset download complete.";
                CSVCreateDataset ld file shard])
          end
      end.
Proof.
  intros Hin Hrej. unfold create_dataset, parse_of. rewrite Hin. simpl.
  unfold bind at 1. rewrite (select_url_accepts self w Hin Hrej).
  unfold bind, os_path_exists, logger_info, emit, read_local, ret,
    call_download_url, call_csv_create_dataset.
  destruct (path_exists w _); simpl.
  - destruct (csv_create_dataset _ _ _ w) as [r w1]. reflexivity.
  - destruct (download_url _ _ w) as [[u|e] w1]; [|reflexivity].
    destruct (csv_create_dataset _ _ _ w1) as [r w2]. reflexivity.
Qed.

Lemma subset_in_list_In (s : string) :
  subset_in_list s = true <-> In s recognized_subsets.
Proof.
  unfold subset_in_list, recognized_subsets. rewrite existsb_exists.
  split.
  - intros (x & Hx & Heq). apply String.eqb_eq in Heq. subst x. exact Hx.
  - intros H. exists s. split; [exact H | apply String.eqb_refl].
Qed.

Lemma subset_not_in_list (s : string) :
  ~ In s recognized_subsets -> subset_in_list s = false.
Proof.
  intros H. destruct (subset_in_list s) eqn:E; [|reflexivity].
  apply subset_in_list_In in E. contradiction.
Qed.

Lemma splitter_eq_str_true (sp : splitter_t SplitterObject) (s : string) :
  splitter_eq_str SplitterObject sp s = true <-> sp = SplitterName s.
Proof.
  destruct sp as [n| |]; simpl; split; intros H; try discriminate.
  - apply String.eqb_eq in H. subst n. reflexivity.
  - inversion H. apply String.eqb_refl.
Qed.

Lemma not_rejected (self : loader_t) :
  ~ (subset self = "FULL" /\
     splitter (super self) = SplitterName "SpecifiedSplitter") ->
  full_with_specified_split self = false.
Proof.
  intros H. unfold full_with_specified_split.
  destruct (subset self =? "FULL") eqn:Hs; [|reflexivity].
  destruct (splitter_eq_str _ _ _) eqn:Hp; [|reflexivity].
  exfalso. apply H. split.
  - apply String.eqb_eq. exact Hs.
  - apply splitter_eq_str_true. exact Hp.
Qed.

(** Lines 35-36: an unknown subset is refused at once. *)
Lemma create_dataset_unknown (self : loader_t) (w : World) :
  subset_in_list (subset self) = false ->
  run self w = (Raise (mk_exn ValueError invalid_subset_msg), w, []).
Proof. intros H. unfold create_dataset. rewrite H. reflexivity. Qed.

(** Lines 47-52: FULL with the string 'SpecifiedSplitter' is refused
    before the cache is looked at. *)
Lemma create_dataset_rejected (self : loader_t) (w : World) :
  full_with_specified_split self = true ->
  run self w = (Raise (mk_exn ValueError no_split_msg), w, []).
Proof.
  unfold full_with_specified_split. rewrite andb_true_iff.
  intros [Hs Hp]. apply String.eqb_eq in Hs.
  unfold create_dataset, select_url. rewrite Hs in *. simpl.
  unfold bind. rewrite Hp. reflexivity.
Qed.

(** *** The claims about [create_dataset] *)

(** C3.  For a loader built by [__init__] for a recognized subset, in a
    run that gets past the checks of lines 35-52 (every run, unless the
    subset is FULL and the splitter attribute is the string
    'SpecifiedSplitter'; a splitter object or no splitter never stops a
    run): when the file [USPTO_<subset>.csv] is absent from the data
    directory exactly one download is performed, of the URL of the
    subset into the data directory; when the file is present no download
    is performed.  Nothing but the existence of the file decides. *)
Theorem create_dataset_download_iff_cache_missing
    (base : _MolnetLoader Featurizer SplitterObject Transformer)
    (sub : string) (sep : bool) (w : World) :
  In sub recognized_subsets ->
  ~ (sub = "FULL" /\ splitter base = SplitterName "SpecifiedSplitter") ->
  downloads (trace_of (run (__init__ base sub sep) w)) =
    if path_exists w (cache_file (data_dir base) sub) then []
    else [(subset_url sub, data_dir base)].
Proof.
  intros Hin Hrej.
  rewrite create_dataset_accepted;
    [| apply subset_in_list_In; exact Hin | apply not_rejected; exact Hrej].
  unfold parse_of, cache_file. simpl.
  destruct (path_exists w _).
  - destruct (csv_create_dataset _ _ _ w) as [r w1]. reflexivity.
  - destruct (download_url _ _ w) as [[u|e] w1]; [|reflexivity].
    destruct (csv_create_dataset _ _ _ w1) as [r w2]. reflexivity.
Qed.

(** C4.  For every subset that is none of MIT, STEREO, 50K and FULL,
    [create_dataset] raises a [ValueError] at once: no event has
    happened, in particular no download, and the world is as it was. *)
Theorem create_dataset_rejects_unknown_subset (self : loader_t) (w : World) :
  ~ In (subset self) recognized_subsets ->
  exists msg,
    run self w = (Raise (mk_exn ValueError msg), w, []) /\
    downloads (trace_of (run self w)) = [].
Proof.
  intros H. exists invalid_subset_msg.
  rewrite (create_dataset_unknown self w (subset_not_in_list _ H)).
  split; reflexivity.
Qed.

(** Lines 47-52 as they are written: the guard compares the splitter
    attribute with the string 'SpecifiedSplitter'.  When the attribute is
    that very string and the subset is FULL, [create_dataset] raises a
    [ValueError] with nothing done and the world as it was. *)
Theorem create_dataset_rejects_full_specified (self : loader_t) (w : World) :
  subset self = "FULL" ->
  splitter (super self) = SplitterName "SpecifiedSplitter" ->
  run self w =
    (Raise (mk_exn ValueError
       "There is no pre computed split for the full dataset, use a custom split instead!"),
     w, []) /\
  downloads (trace_of (run self w)) = [].
Proof.
  intros Hs Hp.
  assert (H : full_with_specified_split self = true).
  { unfold full_with_specified_split. rewrite Hs, Hp. reflexivity. }
  rewrite (create_dataset_rejected self w H). split; reflexivity.
Qed.

(** C9.  [sep_reagent] is a no-op: two loader objects that differ at most
    in their [sep_reagent] flag, run in the same world, give the same
    result, the same final world and the same events. *)
Theorem sep_reagent_is_noop (self1 self2 : loader_t) (w : World) :
  same_up_to_sep_reagent self1 self2 ->
  run self1 w = run self2 w.
Proof.
  destruct self1 as [b1 s1 r1 n1], self2 as [b2 s2 r2 n2].
  unfold same_up_to_sep_reagent. simpl. intros (Hb & Hs & Hn).
  subst b2 s2 n2. reflexivity.
Qed.

(** The CSV parses of a run that passed both checks: none when the
    download raised, else the one of [parse_of]. *)
Lemma csv_parses_accepted (self : loader_t) (w : World) :
  subset_in_list (subset self) = true ->
  full_with_specified_split self = false ->
  csv_parses (trace_of (run self w)) =
    if path_exists w (snd (fst (parse_of self))) then [parse_of self]
    else
      match fst (download_url (subset_url (subset self))
                   (data_dir (super self)) w) with
      | Return _ => [parse_of self]
      | Raise _ => []
      end.
Proof.
  intros Hin Hrej. rewrite (create_dataset_accepted self w Hin Hrej).
  unfold parse_of. simpl.
  destruct (path_exists w _).
  - destruct (csv_create_dataset _ _ _ w) as [r w1]. reflexivity.
  - destruct (download_url _ _ w) as [[u|e] w1]; [|reflexivity].
    destruct (csv_create_dataset _ _ _ w1) as [r w2]. reflexivity.
Qed.

(** C8.  For the loader that [load_uspto] builds for a recognized subset:
    whenever [create_dataset] parses the CSV file, it does so through a
    CSV loader with the empty task list, the feature field "reactions"
    and the loader's featurizer, on the cache file, with shard size 8192;
    and it does parse, exactly once, as soon as the subset and splitter
    are not the refused combination and the cache file is present or the
    download returns. *)
Theorem create_dataset_csv_configuration
    (get_data_dir : string) (feat : Featurizer)
    (sp : splitter_t SplitterObject) (trs : list Transformer)
    (ddir sdir : option string) (sub : string) (sep : bool) (w : World) :
  In sub recognized_subsets ->
  let self := load_uspto_loader get_data_dir feat sp trs ddir sdir sub sep in
  let dir := match ddir with Some d => d | None => get_data_dir end in
  let cfg := (mk_CSVLoader [] "reactions" feat, cache_file dir sub, 8192%Z) in
  (forall p, In p (csv_parses (trace_of (run self w))) -> p = cfg) /\
  (~ (sub = "FULL" /\ sp = SplitterName "SpecifiedSplitter") ->
   (path_exists w (cache_file dir sub) = true \/
    exists w1, download_url (subset_url sub) dir w = (Return tt, w1)) ->
   csv_parses (trace_of (run self w)) = [cfg]).
Proof.
  intros Hin self dir cfg.
  assert (Hsub : subset_in_list (subset self) = true)
    by (apply subset_in_list_In; exact Hin).
  assert (Hcfg : parse_of self = cfg) by reflexivity.
  split.
  - intros p Hp.
    destruct (full_with_specified_split self) eqn:Hrej.
    + rewrite (create_dataset_rejected self w Hrej) in Hp. destruct Hp.
    + rewrite (csv_parses_accepted self w Hsub Hrej), Hcfg in Hp.
      destruct (path_exists w _).
      * destruct Hp as [<- | []]. reflexivity.
      * destruct (fst (download_url _ _ w)); simpl in Hp.
        -- destruct Hp as [<- | []]. reflexivity.
        -- destruct Hp.
  - intros Hrej Hlive.
    rewrite (csv_parses_accepted self w Hsub (not_rejected self Hrej)), Hcfg.
    change (snd (fst cfg)) with (cache_file dir sub).
    change (data_dir (super self)) with dir.
    change (subset self) with sub.
    destruct Hlive as [Hp | [w1 Hd]].
    + rewrite Hp. reflexivity.
    + rewrite Hd. simpl. destruct (path_exists w _); reflexivity.
Qed.

(** C10.  The error raised for an unrecognized subset is a [ValueError]
    whose message is exactly "Valid Subset names are MIT, STEREO and
    50K.".  The message does not mention FULL, although FULL passes the
    same membership test: a loader for FULL is never refused with this
    error before anything has happened. *)
Theorem invalid_subset_message (self : loader_t) (w : World) :
  ~ In (subset self) recognized_subsets ->
  exists e,
    run self w = (Raise e, w, []) /\
    exn_cls e = ValueError /\
    exn_msg e = "Valid Subset names are MIT, STEREO and 50K." /\
    str_in "FULL" (exn_msg e) = false /\
    subset_in_list "FULL" = true /\
    forall (self' : loader_t) (w' : World),
      subset self' = "FULL" -> run self' w' <> (Raise e, w', []).
Proof.
  intros H. exists (mk_exn ValueError invalid_subset_msg).
  split; [apply create_dataset_unknown, subset_not_in_list, H|].
  repeat split; try reflexivity.
  intros self' w' Hfull.
  assert (Hin : subset_in_list (subset self') = true)
    by (rewrite Hfull; reflexivity).
  destruct (full_with_specified_split self') eqn:Hrej.
  - rewrite (create_dataset_rejected self' w' Hrej). discriminate.
  - rewrite (create_dataset_accepted self' w' Hin Hrej).
    unfold parse_of. simpl.
    destruct (path_exists w' _).
    + destruct (csv_create_dataset _ _ _ w') as [r w1]. discriminate.
    + destruct (download_url _ _ w') as [[u|e] w1]; [|discriminate].
      destruct (csv_create_dataset _ _ _ w1) as [r w2]. discriminate.
Qed.

End LoaderProperties.

(** *** Runs in the toy world *)

Example toy_first_load_downloads :
  Fixtures.toy_create_dataset
    (USPTO.__init__ (Fixtures.toy_base USPTO.SplitterNone) "50K" true) [] =
    (Return "/data/USPTO_50K.csv", ["/data/USPTO_50K.csv"],
     [USPTO.LoggerInfo "Downloading dataset...";
      USPTO.DownloadUrl USPTO.USPTO_50K_URL "/data";
      USPTO.LoggerInfo "Dataset download complete.";
      USPTO.CSVCreateDataset (USPTO.mk_CSVLoader ["label"] "reactions" "dummy")
        "/data/USPTO_50K.csv" 8192]).
Proof. reflexivity. Qed.

Example toy_second_load_reuses :
  Fixtures.toy_create_dataset
    (USPTO.__init__ (Fixtures.toy_base USPTO.SplitterNone) "50K" true)
    ["/data/USPTO_50K.csv"] =
    (Return "/data/USPTO_50K.csv", ["/data/USPTO_50K.csv"],
     [USPTO.CSVCreateDataset (USPTO.mk_CSVLoader ["label"] "reactions" "dummy")
        "/data/USPTO_50K.csv" 8192]).
Proof. reflexivity. Qed.

Lemma create_dataset_download_iff_cache_missing_witness :
  In "50K" USPTO.recognized_subsets /\
  USPTO.downloads
    (USPTO.trace_of
       (Fixtures.toy_create_dataset
          (USPTO.__init__ (Fixtures.toy_base USPTO.SplitterNone) "50K" true)
          [])) =
    [(USPTO.subset_url "50K", "/data")] /\
  USPTO.downloads
    (USPTO.trace_of
       (Fixtures.toy_create_dataset
          (USPTO.__init__ (Fixtures.toy_base USPTO.SplitterNone) "50K" true)
          ["/data/USPTO_50K.csv"])) = [].
Proof.
  assert (Hin : In "50K" USPTO.recognized_subsets) by (simpl; tauto).
  assert (Hrej : ~ ("50K" = "FULL" /\
                    USPTO.splitter (Fixtures.toy_base USPTO.SplitterNone) =
                      USPTO.SplitterName "SpecifiedSplitter"))
    by (intros [H _]; discriminate H).
  split; [exact Hin|]. split.
  - exact (create_dataset_download_iff_cache_missing Fixtures.toy_exists
             Fixtures.toy_download Fixtures.toy_csv
             (Fixtures.toy_base USPTO.SplitterNone) "50K" true [] Hin Hrej).
  - exact (create_dataset_download_iff_cache_missing Fixtures.toy_exists
             Fixtures.toy_download Fixtures.toy_csv
             (Fixtures.toy_base USPTO.SplitterNone) "50K" true
             ["/data/USPTO_50K.csv"] Hin Hrej).
Defined.

Lemma create_dataset_rejects_unknown_subset_witness :
  exists msg,
    Fixtures.toy_create_dataset
      (USPTO.__init__ (Fixtures.toy_base USPTO.SplitterNone) "BOGUS" true) []
      = (Raise (mk_exn ValueError msg), [], []) /\
    USPTO.downloads
      (USPTO.trace_of
         (Fixtures.toy_create_dataset
            (USPTO.__init__ (Fixtures.toy_base USPTO.SplitterNone)
               "BOGUS" true) [])) = [].
Proof.
  apply (create_dataset_rejects_unknown_subset Fixtures.toy_exists
           Fixtures.toy_download Fixtures.toy_csv
           (USPTO.__init__ (Fixtures.toy_base USPTO.SplitterNone)
              "BOGUS" true) []).
  simpl. intuition discriminate.
Defined.

Lemma create_dataset_rejects_full_specified_witness :
  Fixtures.toy_create_dataset Fixtures.full_specified_loader [] =
    (Raise (mk_exn ValueError
       "There is no pre computed split for the full dataset, use a custom split instead!"),
     [], []) /\
  USPTO.downloads
    (USPTO.trace_of
       (Fixtures.toy_create_dataset Fixtures.full_specified_loader [])) = [].
Proof.
  apply (create_dataset_rejects_full_specified Fixtures.toy_exists
           Fixtures.toy_download Fixtures.toy_csv
           Fixtures.full_specified_loader []); reflexivity.
Defined.

Lemma sep_reagent_is_noop_witness :
  Fixtures.toy_create_dataset
    (USPTO.__init__ (Fixtures.toy_base USPTO.SplitterNone) "MIT" true) [] =
  Fixtures.toy_create_dataset
    (USPTO.__init__ (Fixtures.toy_base USPTO.SplitterNone) "MIT" false) [].
Proof.
  apply (sep_reagent_is_noop Fixtures.toy_exists Fixtures.toy_download
           Fixtures.toy_csv).
  unfold USPTO.same_up_to_sep_reagent. simpl. repeat split; reflexivity.
Defined.

Lemma create_dataset_csv_configuration_witness :
  In "MIT" USPTO.recognized_subsets /\
  USPTO.csv_parses
    (USPTO.trace_of
       (Fixtures.toy_create_dataset (Fixtures.toy_uspto_loader "MIT") [])) =
    [(USPTO.mk_CSVLoader [] "reactions" "dummy", "/data/USPTO_MIT.csv",
      8192%Z)].
Proof.
  assert (Hin : In "MIT" USPTO.recognized_subsets) by (simpl; tauto).
  split; [exact Hin|].
  destruct (create_dataset_csv_configuration Fixtures.toy_exists
              Fixtures.toy_download Fixtures.toy_csv
              "/data" "dummy" (@USPTO.SplitterNone unit) (@nil unit)
              None None "MIT" true [] Hin) as [_ H].
  apply H.
  - intros [Hsub _]. discriminate Hsub.
  - right. eexists. reflexivity.
Defined.

Lemma invalid_subset_message_witness :
  exists e,
    Fixtures.toy_create_dataset
      (USPTO.__init__ (Fixtures.toy_base USPTO.SplitterNone) "BOGUS" true) []
      = (Raise e, [], []) /\
    exn_cls e = ValueError /\
    exn_msg e = "Valid Subset names are MIT, STEREO and 50K." /\
    str_in "FULL" (exn_msg e) = false /\
    USPTO.subset_in_list "FULL" = true.
Proof.
  destruct (invalid_subset_message Fixtures.toy_exists Fixtures.toy_download
              Fixtures.toy_csv
              (USPTO.__init__ (Fixtures.toy_base USPTO.SplitterNone)
                 "BOGUS" true) [])
    as (e & Hrun & Hcls & Hmsg & Hfull & Hin & _).
  - simpl. intuition discriminate.
  - exists e. repeat split; assumption.
Defined.

(** * Further properties of [ElementPropertyFingerprint] *)

Section FingerprintFailures.

Import ElementPropertyFingerprint.

Context {PymatgenComposition ElementProperty : Type}.
Variable import_ElementProperty : result unit.
Variable from_preset : string -> result ElementProperty.
Variable ep_featurize :
  ElementProperty -> PymatgenComposition -> result (list float64).

Local Abbreviation featurize :=
  (_featurize import_ElementProperty from_preset ep_featurize).

(** What the construction of lines 78-80 raises, when it raises. *)
Lemma try_construct_raise (self : t ElementProperty) (e : exn) :
  import_ElementProperty = Raise e \/
  (import_ElementProperty = Return tt /\
   from_preset (data_source self) = Raise e) ->
  try_construct import_ElementProperty from_preset self = Raise e.
Proof.
  unfold try_construct. intros [H | [H1 H2]].
  - rewrite H. reflexivity.
  - rewrite H1, H2. reflexivity.
Qed.

(** X1.  Without an engine, an exception of the import or of
    [from_preset] that is not a [ModuleNotFoundError] (an unknown preset
    name, say) leaves [_featurize] as it was raised, and the featurizer
    is left as it was. *)
Theorem featurize_construction_error_propagates
    (self : t ElementProperty) c (e : exn) :
  ep_featurizer self = None ->
  (import_ElementProperty = Raise e \/
   (import_ElementProperty = Return tt /\
    from_preset (data_source self) = Raise e)) ->
  is_ModuleNotFoundError (exn_cls e) = false ->
  featurize self c = (Raise e, self).
Proof.
  intros Hnone Hraise Hcls. unfold _featurize, ensure_engine.
  rewrite Hnone, (try_construct_raise self e Hraise), Hcls. reflexivity.
Qed.

(** X2.  A [ModuleNotFoundError] raised inside [from_preset], the import
    of matminer itself having succeeded, is reported like a missing
    matminer: an [ImportError] with the fixed message, whatever module
    was missing. *)
Theorem featurize_missing_module_in_from_preset
    (self : t ElementProperty) c (m : string) :
  ep_featurizer self = None ->
  import_ElementProperty = Return tt ->
  from_preset (data_source self) = Raise (mk_exn ModuleNotFoundError m) ->
  featurize self c =
    (Raise (mk_exn ImportError
              "This class requires matminer to be installed."), self).
Proof.
  intros Hnone Himp Hpre. unfold _featurize, ensure_engine.
  rewrite Hnone.
  rewrite (try_construct_raise self (mk_exn ModuleNotFoundError m));
    [reflexivity | right; split; assumption].
Qed.

(** X3.  Once a call has returned a vector, every later call on the
    instance returns a vector too, for any composition: after the engine
    is built [_featurize] cannot raise. *)
Theorem featurize_never_raises_after_success
    (self : t ElementProperty) c1 c2 (v1 : ndarray) :
  fst (featurize self c1) = Return v1 ->
  exists v2,
    featurize (snd (featurize self c1)) c2 =
      (Return v2, snd (featurize self c1)).
Proof.
  unfold _featurize at 1 3 4.
  destruct (ensure_engine _ _ self) as [[u|e] s] eqn:E; simpl;
    [|discriminate].
  intros _. destruct (ensure_engine_return _ _ self u s E) as [ep Hep].
  unfold _featurize. rewrite (ensure_engine_cached _ _ s ep Hep).
  eexists. reflexivity.
Qed.

(** X8.  A call changes the featurizer at most by filling an empty
    [ep_featurizer]: [data_source] is kept, and an engine that is there
    is neither replaced nor dropped. *)
Theorem featurize_keeps_configuration (self : t ElementProperty) c :
  data_source (snd (featurize self c)) = data_source self /\
  (forall ep, ep_featurizer self = Some ep ->
              snd (featurize self c) = self).
Proof.
  split.
  - unfold _featurize.
    destruct (ensure_engine _ _ self) as [[u|e] s] eqn:E; simpl.
    + revert E. unfold ensure_engine, try_construct.
      destruct (ep_featurizer self) as [ep|].
      * intros H. inversion H. reflexivity.
      * destruct import_ElementProperty as [x|e0].
        -- destruct (from_preset (data_source self)) as [ep|e0].
           ++ intros H. inversion H. reflexivity.
           ++ destruct (is_ModuleNotFoundError (exn_cls e0)); discriminate.
        -- destruct (is_ModuleNotFoundError (exn_cls e0)); discriminate.
    + rewrite (ensure_engine_raise _ _ self e s E). reflexivity.
  - intros ep Hep. unfold _featurize.
    rewrite (ensure_engine_cached _ _ self ep Hep). reflexivity.
Qed.

End FingerprintFailures.

Section FingerprintCaching.

Import ElementPropertyFingerprint.

Context {PymatgenComposition ElementProperty : Type}.
Variable ep_featurize :
  ElementProperty -> PymatgenComposition -> result (list float64).

(** Two states of the installation: what the import and [from_preset] do
    at an earlier and at a later call. *)
Variables import1 import2 : result unit.
Variables from_preset1 from_preset2 : string -> result ElementProperty.

Local Abbreviation featurize1 := (_featurize import1 from_preset1 ep_featurize).
Local Abbreviation featurize2 := (_featurize import2 from_preset2 ep_featurize).

(** X4.  A failed construction is not remembered: when a call raises,
    the instance has no engine afterwards, and a later call made when the
    import and [from_preset] succeed builds the engine and returns. *)
Theorem featurize_retries_after_failure
    (self : t ElementProperty) c (e : exn) (ep : ElementProperty) :
  fst (featurize1 self c) = Raise e ->
  import2 = Return tt ->
  from_preset2 (data_source self) = Return ep ->
  ep_featurizer (snd (featurize1 self c)) = None /\
  exists v,
    featurize2 (snd (featurize1 self c)) c =
      (Return v, mk (data_source self) (Some ep)).
Proof.
  intros Hraise Himp Hpre.
  assert (Hsame : snd (featurize1 self c) = self /\ ep_featurizer self = None).
  { revert Hraise. unfold _featurize.
    destruct (ensure_engine _ _ self) as [[u|e0] s] eqn:E; simpl;
      [discriminate|]. intros _.
    pose proof (ensure_engine_raise _ _ self e0 s E) as Hs. subst s.
    split; [reflexivity|].
    destruct (ep_featurizer self) as [ep0|] eqn:Hep; [|reflexivity].
    rewrite (ensure_engine_cached _ _ self ep0 Hep) in E. discriminate. }
  destruct Hsame as [Hsnd Hnone]. rewrite Hsnd. split; [exact Hnone|].
  eexists. apply featurize_with_engine. right. repeat split; assumption.
Qed.

(** X5.  With an engine cached, [_featurize] no longer looks at the
    installation nor at [data_source]: the import may fail by now, the
    preset may have been changed on the instance, the result is that of
    the cached engine. *)
Theorem featurize_cached_engine_decides
    (self : t ElementProperty) (ep : ElementProperty) c (ds' : string) :
  ep_featurizer self = Some ep ->
  fst (featurize1 self c) = fst (featurize2 (mk ds' (Some ep)) c) /\
  fst (featurize1 self c) =
    Return (nan_to_num match ep_featurize ep c with
                       | Return feats => feats
                       | Raise _ => []
                       end).
Proof.
  intros Hep.
  rewrite (featurize_with_engine import1 from_preset1 ep_featurize
             self ep c (or_introl Hep)).
  rewrite (featurize_with_engine import2 from_preset2 ep_featurize
             (mk ds' (Some ep)) ep c (or_introl eq_refl)).
  split; reflexivity.
Qed.

End FingerprintCaching.

Section FingerprintFinite.

Import ElementPropertyFingerprint.

Context {PymatgenComposition ElementProperty : Type}.
Variable import_ElementProperty : result unit.
Variable from_preset : string -> result ElementProperty.
Variable ep_featurize :
  ElementProperty -> PymatgenComposition -> result (list float64).

Local Abbreviation featurize :=
  (_featurize import_ElementProperty from_preset ep_featurize).

Lemma nan_to_num1_finite (x : float64) : isfinite (nan_to_num1 x) = true.
Proof. destruct x; reflexivity. Qed.

Lemma nan_to_num1_fixes_finite (x : float64) :
  isfinite x = true -> nan_to_num1 x = x.
Proof. destruct x; simpl; intros H; try reflexivity; discriminate H. Qed.

Lemma nan_to_num_fixes_finite (a : ndarray) :
  all_finite a -> nan_to_num a = a.
Proof.
  unfold all_finite, nan_to_num. induction 1 as [|x a Hx _ IH]; simpl.
  - reflexivity.
  - rewrite (nan_to_num1_fixes_finite x Hx), IH. reflexivity.
Qed.

(** X6.  Every entry of a vector that [_featurize] returns is a finite
    number: neither a NaN nor an infinity. *)
Theorem featurize_all_finite (self : t ElementProperty) c v self' :
  featurize self c = (Return v, self') -> all_finite v.
Proof.
  intros H.
  destruct (featurize_returns_nan_to_num _ _ _ self c v self' H)
    as [feats ->].
  unfold all_finite, nan_to_num. apply Forall_map, Forall_forall.
  intros x _. apply nan_to_num1_finite.
Qed.

(** X7.  An answer of the engine made of finite numbers only is returned
    as it is, negative zeros included. *)
Theorem featurize_keeps_finite_answer
    (self : t ElementProperty) (ep : ElementProperty) c feats :
  uses_engine import_ElementProperty from_preset self ep ->
  ep_featurize ep c = Return feats ->
  all_finite feats ->
  fst (featurize self c) = Return feats.
Proof.
  intros Hep Hf Hfin.
  rewrite (featurize_with_engine _ _ _ self ep c Hep), Hf. simpl.
  rewrite (nan_to_num_fixes_finite feats Hfin). reflexivity.
Qed.

End FingerprintFinite.

(** * Further properties of the USPTO loader *)

Section LoaderRuns.

Import USPTO.

Context {Featurizer SplitterObject Transformer Dataset World : Type}.
Variable path_exists : World -> string -> bool.
Variable download_url : string -> string -> World -> result unit * World.
Variable csv_create_dataset :
  CSVLoader Featurizer -> string -> Z -> World -> result Dataset * World.

Local Abbreviation loader_t :=
  (_USPTOLoader Featurizer SplitterObject Transformer).
Local Abbreviation run :=
  (create_dataset path_exists download_url csv_create_dataset).
Local Abbreviation accepted :=
  (create_dataset_accepted path_exists download_url csv_create_dataset).

(** Either a loader object is refused, with one of the two messages and
    nothing done, or it passes both checks. *)
Lemma create_dataset_refused_or_accepted (self : loader_t) (w : World) :
  (validation_fails self = true /\
   exists msg, run self w = (Raise (mk_exn ValueError msg), w, []) /\
               (msg = invalid_subset_msg \/ msg = no_split_msg)) \/
  (validation_fails self = false /\
   subset_in_list (subset self) = true /\
   full_with_specified_split self = false).
Proof.
  unfold validation_fails.
  destruct (subset_in_list (subset self)) eqn:Hin; simpl.
  - destruct (full_with_specified_split self) eqn:Hrej.
    + left. split; [reflexivity|]. exists no_split_msg.
      split; [apply create_dataset_rejected; exact Hrej | right; reflexivity].
    + right. repeat split; reflexivity.
  - left. split; [reflexivity|]. exists invalid_subset_msg.
    split; [apply create_dataset_unknown; exact Hin | left; reflexivity].
Qed.

(** X9.  The outside calls of any run of [create_dataset], on any loader
    object, are one of four sequences: nothing; the parse alone; the
    download alone (announced in the log); or the download, logged
    before and after, followed by the parse.  So a run downloads at most
    once, parses at most once, and never parses before it downloads. *)
Theorem create_dataset_trace_shape (self : loader_t) (w : World) :
  let dir := data_dir (super self) in
  let dl := DownloadUrl (subset_url (subset self)) dir in
  let parse :=
    CSVCreateDataset
      (mk_CSVLoader (tasks (super self)) "reactions"
         (featurizer (super self)))
      (os_path_join dir (name self ++ ".csv")) 8192 in
  let tr := trace_of (run self w) in
  tr = [] \/
  tr = [parse] \/
  tr = [LoggerInfo "Downloading dataset..."; dl] \/
  tr = [LoggerInfo "Downloading dataset..."; dl;
        LoggerInfo "Dataset download complete."; parse].
Proof.
  intros dir dl parse tr. subst tr.
  destruct (create_dataset_refused_or_accepted self w)
    as [(_ & msg & Hrun & _) | (_ & Hin & Hrej)].
  - rewrite Hrun. left. reflexivity.
  - rewrite (accepted self w Hin Hrej). unfold parse_of. simpl.
    destruct (path_exists w _).
    + destruct (csv_create_dataset _ _ _ w) as [r w1].
      right; left. reflexivity.
    + destruct (download_url _ _ w) as [[u|e] w1].
      * destruct (csv_create_dataset _ _ _ w1) as [r w2].
        right; right; right. reflexivity.
      * right; right; left. reflexivity.
Qed.

(** X10.  A run of [create_dataset] does nothing outside exactly when
    the loader object is refused: the subset is none of the four names,
    or it is FULL and the splitter is the string 'SpecifiedSplitter'.
    FULL with a splitter object, with another name or with no splitter
    goes on to the cache file. *)
Theorem create_dataset_silent_iff_refused (self : loader_t) (w : World) :
  trace_of (run self w) = [] <->
  (~ In (subset self) recognized_subsets \/
   (subset self = "FULL" /\
    splitter (super self) = SplitterName "SpecifiedSplitter")).
Proof.
  split.
  - intros Htr.
    destruct (create_dataset_refused_or_accepted self w)
      as [(Hfail & _) | (_ & Hin & Hrej)].
    + unfold validation_fails in Hfail.
      apply orb_true_iff in Hfail. destruct Hfail as [Hn | Hr].
      * left. intros HIn. apply subset_in_list_In in HIn.
        rewrite HIn in Hn. discriminate Hn.
      * right. unfold full_with_specified_split in Hr.
        apply andb_true_iff in Hr. destruct Hr as [Hs Hp].
        split; [apply String.eqb_eq; exact Hs
               | apply splitter_eq_str_true; exact Hp].
    + exfalso. revert Htr. rewrite (accepted self w Hin Hrej).
      unfold parse_of. simpl.
      destruct (path_exists w _).
      * destruct (csv_create_dataset _ _ _ w) as [r w1]. discriminate.
      * destruct (download_url _ _ w) as [[u|e] w1]; [|discriminate].
        destruct (csv_create_dataset _ _ _ w1) as [r w2]. discriminate.
  - intros [Hn | [Hs Hp]].
    + rewrite (create_dataset_unknown _ _ _ self w (subset_not_in_list _ Hn)).
      reflexivity.
    + rewrite (create_dataset_rejected _ _ _ self w); [reflexivity|].
      unfold full_with_specified_split. rewrite Hs, Hp. reflexivity.
Qed.

(** X11.  For a recognized subset that is not refused and whose cache
    file is absent: when the download raises, [create_dataset] raises the
    same exception; the file is not parsed, "Dataset download complete."
    is not logged, and the world is as the download left it. *)
Theorem create_dataset_download_failure
    (self : loader_t) (w w1 : World) (e : exn) :
  In (subset self) recognized_subsets ->
  ~ (subset self = "FULL" /\
     splitter (super self) = SplitterName "SpecifiedSplitter") ->
  path_exists w (os_path_join (data_dir (super self)) (name self ++ ".csv"))
    = false ->
  download_url (subset_url (subset self)) (data_dir (super self)) w
    = (Raise e, w1) ->
  run self w =
    (Raise e, w1,
     [LoggerInfo "Downloading dataset...";
      DownloadUrl (subset_url (subset self)) (data_dir (super self))]).
Proof.
  intros Hin Hrej Habs Hdl.
  rewrite (accepted self w (proj2 (subset_in_list_In _) Hin)
             (not_rejected self Hrej)).
  unfold parse_of. simpl. rewrite Habs, Hdl. reflexivity.
Qed.

(** X12.  [create_dataset] raises nothing of its own besides its two
    [ValueError]s: any other exception of a run is the one the download
    helper raised on the URL of the subset, or one the CSV loader raised
    on the cache file, passed on unchanged.  In particular the local
    [dataset_url] is never read unbound. *)
Theorem create_dataset_exception_origin
    (self : loader_t) (w : World) (e : exn) :
  result_of (run self w) = Raise e ->
  e = mk_exn ValueError invalid_subset_msg \/
  e = mk_exn ValueError no_split_msg \/
  (exists w1,
     download_url (subset_url (subset self)) (data_dir (super self)) w
       = (Raise e, w1)) \/
  (exists w0 w1,
     csv_create_dataset (fst (fst (parse_of self)))
       (snd (fst (parse_of self))) 8192 w0 = (Raise e, w1)).
Proof.
  destruct (create_dataset_refused_or_accepted self w)
    as [(_ & msg & Hrun & Hmsg) | (_ & Hin & Hrej)].
  - rewrite Hrun. unfold result_of. simpl. intros H. inversion H.
    destruct Hmsg as [-> | ->]; [left | right; left]; reflexivity.
  - rewrite (accepted self w Hin Hrej). unfold parse_of, result_of. simpl.
    destruct (path_exists w _).
    + destruct (csv_create_dataset _ _ _ w) as [r w1] eqn:Hcsv. simpl.
      intros ->. right; right; right. exists w, w1. exact Hcsv.
    + destruct (download_url _ _ w) as [[u|e0] w1] eqn:Hdl.
      * destruct (csv_create_dataset _ _ _ w1) as [r w2] eqn:Hcsv. simpl.
        intros ->. right; right; right. exists w1, w2. exact Hcsv.
      * simpl. intros H. inversion H. subst e0.
        right; right; left. exists w1. reflexivity.
Qed.

(** X13.  The download of a loader built by [__init__] is aimed at its
    cache file: whenever a run downloads [url] into [dest], the file
    name at the end of [url], joined to [dest], is the path
    [USPTO_<subset>.csv] in the data directory that the run tests and
    parses. *)
Theorem create_dataset_download_target
    (base : _MolnetLoader Featurizer SplitterObject Transformer)
    (sub : string) (sep : bool) (w : World) (url dest : string) :
  In (url, dest) (downloads (trace_of (run (__init__ base sub sep) w))) ->
  os_path_join dest (os_path_basename url) = cache_file (data_dir base) sub /\
  snd (fst (parse_of (__init__ base sub sep))) =
    cache_file (data_dir base) sub.
Proof.
  intros Hd. split; [|reflexivity].
  destruct (create_dataset_refused_or_accepted (__init__ base sub sep) w)
    as [(_ & msg & Hrun & _) | (_ & Hin & Hrej)].
  - rewrite Hrun in Hd. destruct Hd.
  - rewrite (accepted _ w Hin Hrej) in Hd. unfold parse_of in Hd.
    simpl in Hd.
    assert (Hdl : (url, dest) = (subset_url sub, data_dir base)).
    { destruct (path_exists w _).
      - destruct (csv_create_dataset _ _ _ w) as [r w1]. destruct Hd.
      - destruct (download_url _ _ w) as [[u|e] w1].
        + destruct (csv_create_dataset _ _ _ w1) as [r w2].
          destruct Hd as [H | []]. symmetry. exact H.
        + destruct Hd as [H | []]. symmetry. exact H. }
    inversion Hdl. subst url dest.
    destruct (subset_in_list_cases download_url sub Hin)
      as [H | [H | [H | H]]]; subst sub; reflexivity.
Qed.

End LoaderRuns.

Section LoaderCache.

Import USPTO.

Context {Featurizer SplitterObject Transformer Dataset World : Type}.
Variable path_exists : World -> string -> bool.
Variable download_url : string -> string -> World -> result unit * World.
Variable csv_create_dataset :
  CSVLoader Featurizer -> string -> Z -> World -> result Dataset * World.

Local Abbreviation loader_t :=
  (_USPTOLoader Featurizer SplitterObject Transformer).
Local Abbreviation run :=
  (create_dataset path_exists download_url csv_create_dataset).

(** X14.  [create_dataset] reads six things of the loader object and no
    more: the subset, the name, the data directory, the task list, the
    featurizer, and whether the splitter is the string
    'SpecifiedSplitter'.  Two objects that agree on these run alike in
    the same world, whatever their transformers, save directory and
    [sep_reagent], and whatever splitting strategy they carry: no split
    is made here. *)
Theorem create_dataset_reads_only (self1 self2 : loader_t) (w : World) :
  subset self1 = subset self2 ->
  name self1 = name self2 ->
  data_dir (super self1) = data_dir (super self2) ->
  tasks (super self1) = tasks (super self2) ->
  featurizer (super self1) = featurizer (super self2) ->
  is_specified_splitter (splitter (super self1)) =
    is_specified_splitter (splitter (super self2)) ->
  run self1 w = run self2 w.
Proof.
  destruct self1 as [[f1 sp1 t1 k1 d1 s1] sub1 r1 n1].
  destruct self2 as [[f2 sp2 t2 k2 d2 s2] sub2 r2 n2].
  unfold is_specified_splitter. simpl.
  intros Hsub Hn Hd Hk Hf Hsp. subst sub2 n2 d2 k2 f2.
  unfold create_dataset, select_url. simpl. rewrite Hsp. reflexivity.
Qed.

(** What is assumed of the two helpers for the next property: a download
    that returns has stored the file under the name at the end of the
    URL, in the destination directory; parsing removes no file. *)
Hypothesis download_stores :
  forall url dir w0 w1,
    download_url url dir w0 = (Return tt, w1) ->
    path_exists w1 (os_path_join dir (os_path_basename url)) = true.
Hypothesis parse_keeps_files :
  forall ld f n w0 p,
    path_exists w0 p = true ->
    path_exists (snd (csv_create_dataset ld f n w0)) p = true.

(** After a run that returned a dataset the cache file exists. *)
Lemma cache_file_exists_after_run
    (base : _MolnetLoader Featurizer SplitterObject Transformer)
    (sub : string) (sep : bool) (w : World) (d : Dataset) :
  result_of (run (__init__ base sub sep) w) = Return d ->
  subset_in_list sub = true /\
  full_with_specified_split (__init__ base sub sep) = false /\
  path_exists (world_of (run (__init__ base sub sep) w))
    (cache_file (data_dir base) sub) = true.
Proof.
  destruct (create_dataset_refused_or_accepted path_exists download_url
              csv_create_dataset (__init__ base sub sep) w)
    as [(_ & msg & Hrun & _) | (_ & Hin & Hrej)].
  - rewrite Hrun. discriminate.
  - intros Hret. split; [exact Hin|]. split; [exact Hrej|].
    revert Hret.
    rewrite (create_dataset_accepted path_exists download_url
               csv_create_dataset _ w Hin Hrej).
    unfold parse_of, result_of, world_of, cache_file. simpl.
    destruct (path_exists w _) eqn:Hex.
    + pose proof (parse_keeps_files
                    (mk_CSVLoader (tasks base) "reactions" (featurizer base))
                    (os_path_join (data_dir base) ("USPTO_" ++ sub ++ ".csv"))
                    8192%Z w _ Hex) as Hkeep.
      destruct (csv_create_dataset _ _ _ w) as [r w1]. simpl. intros _.
      exact Hkeep.
    + destruct (download_url _ _ w) as [[u|e] w1] eqn:Hdl; [|discriminate].
      destruct u. apply download_stores in Hdl.
      assert (Hfile : path_exists w1
                (os_path_join (data_dir base) ("USPTO_" ++ sub ++ ".csv"))
              = true).
      { simpl in Hin.
        destruct (subset_in_list_cases download_url sub Hin)
          as [H | [H | [H | H]]]; subst sub; exact Hdl. }
      pose proof (parse_keeps_files
                    (mk_CSVLoader (tasks base) "reactions" (featurizer base))
                    (os_path_join (data_dir base) ("USPTO_" ++ sub ++ ".csv"))
                    8192%Z w1 _ Hfile) as Hkeep.
      destruct (csv_create_dataset _ _ _ w1) as [r w2]. simpl. intros _.
      exact Hkeep.
Qed.

(** X15.  With such helpers the cache works across calls: after a run
    of [create_dataset] that returned a dataset, a second run of the same
    loader in the world the first one left performs no download, and
    parses the cache file once. *)
Theorem create_dataset_second_run_reuses
    (base : _MolnetLoader Featurizer SplitterObject Transformer)
    (sub : string) (sep : bool) (w : World) (d : Dataset) :
  result_of (run (__init__ base sub sep) w) = Return d ->
  let w' := world_of (run (__init__ base sub sep) w) in
  downloads (trace_of (run (__init__ base sub sep) w')) = [] /\
  csv_parses (trace_of (run (__init__ base sub sep) w')) =
    [parse_of (__init__ base sub sep)].
Proof.
  intros Hret w'.
  destruct (cache_file_exists_after_run base sub sep w d Hret)
    as (Hin & Hrej & Hfile).
  fold w' in Hfile.
  rewrite (create_dataset_accepted path_exists download_url
             csv_create_dataset (__init__ base sub sep) w' Hin Hrej).
  unfold parse_of, cache_file in *. simpl in Hfile |- *. rewrite Hfile.
  destruct (csv_create_dataset _ _ _ w') as [r w2]. split; reflexivity.
Qed.

End LoaderCache.

(** *** Runs on the toy engine, continued *)

Lemma featurize_construction_error_propagates_witness :
  Fixtures.toy_featurizer_call Fixtures.matminer_present "bogus" "Fe2O3" =
    (Raise (mk_exn ValueError "Invalid preset_name specified!"),
     ElementPropertyFingerprint.__init__ "bogus").
Proof.
  apply (featurize_construction_error_propagates Fixtures.matminer_present
           Fixtures.toy_from_preset Fixtures.toy_featurize
           (ElementPropertyFingerprint.__init__ "bogus") "Fe2O3").
  - reflexivity.
  - right. split; reflexivity.
  - reflexivity.
Defined.

Lemma featurize_missing_module_in_from_preset_witness :
  ElementPropertyFingerprint._featurize Fixtures.matminer_present
    Fixtures.toy_from_preset_no_pymatgen Fixtures.toy_featurize
    (ElementPropertyFingerprint.__init__ "magpie") "Fe2O3" =
    (Raise (mk_exn ImportError
              "This class requires matminer to be installed."),
     ElementPropertyFingerprint.__init__ "magpie").
Proof.
  apply (featurize_missing_module_in_from_preset Fixtures.matminer_present
           Fixtures.toy_from_preset_no_pymatgen Fixtures.toy_featurize
           (ElementPropertyFingerprint.__init__ "magpie") "Fe2O3"
           "No module named 'pymatgen'"); reflexivity.
Defined.

Lemma featurize_never_raises_after_success_witness :
  exists v2,
    ElementPropertyFingerprint._featurize Fixtures.matminer_present
      Fixtures.toy_from_preset Fixtures.toy_featurize
      (snd (Fixtures.toy_featurizer_call Fixtures.matminer_present
              "magpie" "Fe2O3")) "" =
      (Return v2,
       snd (Fixtures.toy_featurizer_call Fixtures.matminer_present
              "magpie" "Fe2O3")).
Proof.
  apply (featurize_never_raises_after_success Fixtures.matminer_present
           Fixtures.toy_from_preset Fixtures.toy_featurize
           (ElementPropertyFingerprint.__init__ "magpie") "Fe2O3" ""
           [S754_zero false; Fixtures.one;
            S754_finite true float64_max_mantissa float64_max_exponent]).
  reflexivity.
Defined.

Lemma featurize_retries_after_failure_witness :
  ElementPropertyFingerprint.ep_featurizer
    (snd (Fixtures.toy_featurizer_call Fixtures.matminer_absent
            "deml" "Fe2O3")) = None /\
  exists v,
    ElementPropertyFingerprint._featurize Fixtures.matminer_present
      Fixtures.toy_from_preset Fixtures.toy_featurize
      (snd (Fixtures.toy_featurizer_call Fixtures.matminer_absent
              "deml" "Fe2O3")) "Fe2O3" =
      (Return v, ElementPropertyFingerprint.mk "deml" (Some "deml")).
Proof.
  apply (featurize_retries_after_failure Fixtures.toy_featurize
           Fixtures.matminer_absent Fixtures.matminer_present
           Fixtures.toy_from_preset Fixtures.toy_from_preset
           (ElementPropertyFingerprint.__init__ "deml") "Fe2O3"
           (mk_exn ImportError
              "This class requires matminer to be installed.") "deml");
    reflexivity.
Defined.

Lemma featurize_cached_engine_decides_witness :
  fst (ElementPropertyFingerprint._featurize Fixtures.matminer_absent
         Fixtures.toy_from_preset_no_pymatgen Fixtures.toy_featurize
         (ElementPropertyFingerprint.mk "magpie" (Some "magpie")) "Fe2O3") =
  fst (ElementPropertyFingerprint._featurize Fixtures.matminer_present
         Fixtures.toy_from_preset Fixtures.toy_featurize
         (ElementPropertyFingerprint.mk "deml" (Some "magpie")) "Fe2O3").
Proof.
  apply (featurize_cached_engine_decides Fixtures.toy_featurize
           Fixtures.matminer_absent Fixtures.matminer_present
           Fixtures.toy_from_preset_no_pymatgen Fixtures.toy_from_preset
           (ElementPropertyFingerprint.mk "magpie" (Some "magpie"))
           "magpie" "Fe2O3" "deml").
  reflexivity.
Defined.

Lemma featurize_all_finite_witness :
  ElementPropertyFingerprint.all_finite
    [S754_zero false; Fixtures.one;
     S754_finite true float64_max_mantissa float64_max_exponent].
Proof.
  apply (featurize_all_finite Fixtures.matminer_present
           Fixtures.toy_from_preset Fixtures.toy_featurize
           (ElementPropertyFingerprint.__init__ "magpie") "Fe2O3" _
           (ElementPropertyFingerprint.mk "magpie" (Some "magpie"))).
  reflexivity.
Defined.

Lemma featurize_keeps_finite_answer_witness :
  fst (ElementPropertyFingerprint._featurize Fixtures.matminer_present
         Fixtures.toy_from_preset Fixtures.toy_featurize_finite
         (ElementPropertyFingerprint.__init__ "magpie") "Fe2O3") =
    Return [Fixtures.one; S754_zero true; S754_finite true 3 (-1)].
Proof.
  apply (featurize_keeps_finite_answer Fixtures.matminer_present
           Fixtures.toy_from_preset Fixtures.toy_featurize_finite
           (ElementPropertyFingerprint.__init__ "magpie") "magpie" "Fe2O3").
  - right. repeat split; reflexivity.
  - reflexivity.
  - repeat constructor.
Defined.

(** *** Runs in the toy world, continued *)

Example toy_offline_first_load :
  Fixtures.toy_create_dataset_offline
    (USPTO.__init__ (Fixtures.toy_base USPTO.SplitterNone) "STEREO" true) [] =
    (Raise (mk_exn (OtherException "URLError") USPTO.USPTO_STEREO_URL), [],
     [USPTO.LoggerInfo "Downloading dataset...";
      USPTO.DownloadUrl USPTO.USPTO_STEREO_URL "/data"]).
Proof. reflexivity. Qed.

Example basename_of_url :
  os_path_basename USPTO.USPTO_50K_URL = "USPTO_50K.csv".
Proof. reflexivity. Qed.

Lemma create_dataset_silent_iff_refused_witness :
  USPTO.trace_of
    (Fixtures.toy_create_dataset Fixtures.full_specified_loader []) = [].
Proof.
  apply (create_dataset_silent_iff_refused Fixtures.toy_exists
           Fixtures.toy_download Fixtures.toy_csv
           Fixtures.full_specified_loader []).
  right. split; reflexivity.
Defined.

Lemma create_dataset_download_failure_witness :
  Fixtures.toy_create_dataset_offline
    (USPTO.__init__ (Fixtures.toy_base USPTO.SplitterNone) "MIT" true) [] =
    (Raise (mk_exn (OtherException "URLError") USPTO.USPTO_MIT_URL), [],
     [USPTO.LoggerInfo "Downloading dataset...";
      USPTO.DownloadUrl USPTO.USPTO_MIT_URL "/data"]).
Proof.
  apply (create_dataset_download_failure Fixtures.toy_exists
           Fixtures.toy_download_fails Fixtures.toy_csv
           (USPTO.__init__ (Fixtures.toy_base USPTO.SplitterNone) "MIT" true)
           [] []
           (mk_exn (OtherException "URLError") USPTO.USPTO_MIT_URL)).
  - simpl. tauto.
  - intros [H _]. discriminate H.
  - reflexivity.
  - reflexivity.
Defined.

Lemma create_dataset_exception_origin_witness :
  exists w1,
    Fixtures.toy_download_fails USPTO.USPTO_MIT_URL "/data" [] =
      (Raise (mk_exn (OtherException "URLError") USPTO.USPTO_MIT_URL), w1).
Proof.
  destruct (create_dataset_exception_origin Fixtures.toy_exists
              Fixtures.toy_download_fails Fixtures.toy_csv
              (USPTO.__init__ (Fixtures.toy_base USPTO.SplitterNone)
                 "MIT" true) []
              (mk_exn (OtherException "URLError") USPTO.USPTO_MIT_URL)
              eq_refl)
    as [H | [H | [H | (w0 & w1 & H)]]].
  - discriminate H.
  - discriminate H.
  - exact H.
  - exfalso. unfold Fixtures.toy_csv in H.
    destruct (Fixtures.toy_exists w0 _); discriminate H.
Defined.

Lemma create_dataset_download_target_witness :
  os_path_join "/data" (os_path_basename USPTO.USPTO_50K_URL) =
    USPTO.cache_file "/data" "50K" /\
  snd (fst (USPTO.parse_of
              (USPTO.__init__ (Fixtures.toy_base USPTO.SplitterNone)
                 "50K" true))) = USPTO.cache_file "/data" "50K".
Proof.
  apply (create_dataset_download_target Fixtures.toy_exists
           Fixtures.toy_download Fixtures.toy_csv
           (Fixtures.toy_base USPTO.SplitterNone) "50K" true []
           USPTO.USPTO_50K_URL "/data").
  simpl. left. reflexivity.
Defined.

Lemma create_dataset_reads_only_witness :
  Fixtures.toy_create_dataset
    (USPTO.__init__ (Fixtures.toy_base USPTO.SplitterNone) "FULL" true) [] =
  Fixtures.toy_create_dataset
    (USPTO.__init__
       (USPTO.MolnetLoader_init "/data" "dummy" (USPTO.SplitterName "random")
          [tt] ["label"] None (Some "/elsewhere"))
       "FULL" false) [].
Proof.
  apply (create_dataset_reads_only Fixtures.toy_exists Fixtures.toy_download
           Fixtures.toy_csv); reflexivity.
Defined.

Lemma toy_download_basename_stores :
  forall url dir w0 w1,
    Fixtures.toy_download_basename url dir w0 = (Return tt, w1) ->
    Fixtures.toy_exists w1 (os_path_join dir (os_path_basename url)) = true.
Proof.
  unfold Fixtures.toy_download_basename, Fixtures.toy_exists.
  intros url dir w0 w1 H. inversion H. simpl.
  rewrite String.eqb_refl. reflexivity.
Defined.

Lemma toy_csv_keeps_files :
  forall (ld : USPTO.CSVLoader string) f n w0 p,
    Fixtures.toy_exists w0 p = true ->
    Fixtures.toy_exists (snd (Fixtures.toy_csv ld f n w0)) p = true.
Proof.
  intros ld f n w0 p H. unfold Fixtures.toy_csv.
  destruct (Fixtures.toy_exists w0 f); exact H.
Defined.

Lemma create_dataset_second_run_reuses_witness :
  USPTO.downloads
    (USPTO.trace_of
       (Fixtures.toy_create_dataset_basename
          (USPTO.__init__ (Fixtures.toy_base USPTO.SplitterNone) "50K" true)
          ["/data/USPTO_50K.csv"])) = [] /\
  USPTO.csv_parses
    (USPTO.trace_of
       (Fixtures.toy_create_dataset_basename
          (USPTO.__init__ (Fixtures.toy_base USPTO.SplitterNone) "50K" true)
          ["/data/USPTO_50K.csv"])) =
    [(USPTO.mk_CSVLoader ["label"] "reactions" "dummy",
      "/data/USPTO_50K.csv", 8192%Z)].
Proof.
  exact (create_dataset_second_run_reuses Fixtures.toy_exists
           Fixtures.toy_download_basename Fixtures.toy_csv
           toy_download_basename_stores toy_csv_keeps_files
           (Fixtures.toy_base USPTO.SplitterNone) "50K" true []
           "/data/USPTO_50K.csv" eq_refl).
Defined.

(** * The guard on FULL and splitter objects *)

Section LoaderSplitterGuard.

Import USPTO.

Context {Featurizer SplitterObject Transformer Dataset World : Type}.
Variable path_exists : World -> string -> bool.
Variable download_url : string -> string -> World -> result unit * World.
Variable csv_create_dataset :
  CSVLoader Featurizer -> string -> Z -> World -> result Dataset * World.

Local Abbreviation loader_t :=
  (_USPTOLoader Featurizer SplitterObject Transformer).
Local Abbreviation run :=
  (create_dataset path_exists download_url csv_create_dataset).

(** C5 does not hold of the code.  For the subset FULL with a
    pre-specified split given as a splitter object, [create_dataset] is
    not refused: the comparison of line 49 is with a string, which no
    object equals.  With the cache file absent the run starts with the
    log line and the download of the full corpus, the only download of
    the run, and if it raises [ValueError] at all, that is because the
    download helper or the CSV loader raised it. *)
Theorem create_dataset_full_splitter_object_downloads
    (self : loader_t) (o : SplitterObject) (w : World) :
  subset self = "FULL" ->
  splitter (super self) = SplitterInstance o ->
  path_exists w (os_path_join (data_dir (super self)) (name self ++ ".csv"))
    = false ->
  downloads (trace_of (run self w)) =
    [(USPTO_FULL_URL, data_dir (super self))] /\
  (exists rest,
     trace_of (run self w) =
       LoggerInfo "Downloading dataset..."
         :: DownloadUrl USPTO_FULL_URL (data_dir (super self)) :: rest) /\
  run self w <> (Raise (mk_exn ValueError no_split_msg), w, []).
Proof.
  intros Hs Hp Habs.
  assert (Hin : subset_in_list (subset self) = true)
    by (rewrite Hs; reflexivity).
  assert (Hrej : full_with_specified_split self = false).
  { unfold full_with_specified_split. rewrite Hs, Hp. reflexivity. }
  rewrite (create_dataset_accepted path_exists download_url
             csv_create_dataset self w Hin Hrej).
  unfold parse_of. simpl. rewrite Habs, Hs.
  change (subset_url "FULL") with USPTO_FULL_URL.
  destruct (download_url _ _ w) as [[u|e] w1].
  - destruct (csv_create_dataset _ _ _ w1) as [r w2].
    split; [reflexivity|]. split; [eexists; reflexivity | discriminate].
  - split; [reflexivity|]. split; [eexists; reflexivity | discriminate].
Qed.

End LoaderSplitterGuard.

Example toy_full_splitter_object_run :
  Fixtures.toy_create_dataset Fixtures.full_splitter_object_loader [] =
    (Return "/data/USPTO_FULL.csv", ["/data/USPTO_FULL.csv"],
     [USPTO.LoggerInfo "Downloading dataset...";
      USPTO.DownloadUrl USPTO.USPTO_FULL_URL "/data";
      USPTO.LoggerInfo "Dataset download complete.";
      USPTO.CSVCreateDataset (USPTO.mk_CSVLoader ["label"] "reactions" "dummy")
        "/data/USPTO_FULL.csv" 8192]).
Proof. reflexivity. Qed.

Lemma create_dataset_full_splitter_object_downloads_witness :
  USPTO.subset Fixtures.full_splitter_object_loader = "FULL" /\
  USPTO.splitter (USPTO.super Fixtures.full_splitter_object_loader) =
    USPTO.SplitterInstance tt /\
  USPTO.downloads
    (USPTO.trace_of
       (Fixtures.toy_create_dataset Fixtures.full_splitter_object_loader []))
    = [(USPTO.USPTO_FULL_URL, "/data")].
Proof.
  split; [reflexivity|]. split; [reflexivity|].
  apply (create_dataset_full_splitter_object_downloads Fixtures.toy_exists
           Fixtures.toy_download Fixtures.toy_csv
           Fixtures.full_splitter_object_loader tt []); reflexivity.
Defined.
